(** * Commit-message validation of commitizen: [cz check]

    A shallow embedding of [commitizen/commands/check.py] (class [Check]) and
    of the validation part of [commitizen/cz/base.py] (class
    [BaseCommitizen]), with the properties of the checker proved over it.

    Python values are modelled as follows.
    - [str] is [string]; a character is a code point below 256.
    - [int] is [Z]; [len] is [Z.of_nat] of the length.
    - [None]-able values are [option].
    - A raised exception is the [Raise] arm of [result].
    - Calls on the collaborators ([self.cz], [out]) are recorded in a trace. *)

From Stdlib Require Import String Ascii List ZArith Bool Lia.
From Stdlib Require Import DecimalString.
Import ListNotations.

Local Open Scope list_scope.
Local Open Scope string_scope.

(** ** Python string primitives *)

Module PyStr.

(** The line feed, Python's ["\n"]. *)
Definition LF : ascii := "010"%char.

Definition nl : string := String LF "".

(** The double quote character, as a string. *)
Definition dquote : string := String "034"%char "".

(** [s.startswith(p)]. *)
Definition startswith (s p : string) : bool := prefix p s.

(** [needle in hay]: [needle] occurs in [hay] at some offset. *)
Fixpoint contains (needle hay : string) : bool :=
  prefix needle hay
  || match hay with
     | "" => false
     | String _ rest => contains needle rest
     end.

(** [s.split(sep)] for a one-character separator: never the empty list,
    [""] splits into [[""]]. *)
Fixpoint split (sep : ascii) (s : string) : list string :=
  match s with
  | "" => [""]
  | String c rest =>
      if Ascii.eqb c sep then "" :: split sep rest
      else match split sep rest with
           | line :: lines => String c line :: lines
           | [] => [String c ""]
           end
  end.

(** [sep.join(parts)]. *)
Definition join (sep : string) (parts : list string) : string :=
  String.concat sep parts.

(** [s.partition(sep)[0]]: the text before the first [sep], all of [s]
    when [sep] does not occur. *)
Fixpoint partition_head (sep : ascii) (s : string) : string :=
  match s with
  | "" => ""
  | String c rest =>
      if Ascii.eqb c sep then "" else String c (partition_head sep rest)
  end.

(** [c.isspace()] on the code points below 256: TAB, LF, VT, FF, CR,
    FS, GS, RS, US, SPACE, NEL and NBSP. *)
Definition isspace (c : ascii) : bool :=
  let n := nat_of_ascii c in
  (Nat.leb 9 n && Nat.leb n 13) || (Nat.leb 28 n && Nat.leb n 32)
  || Nat.eqb n 133 || Nat.eqb n 160.

(** [s.lstrip()]. *)
Fixpoint lstrip (s : string) : string :=
  match s with
  | "" => ""
  | String c rest => if isspace c then lstrip rest else s
  end.

(** [s.rstrip()]. *)
Fixpoint rstrip (s : string) : string :=
  match s with
  | "" => ""
  | String c rest =>
      match rstrip rest with
      | "" => if isspace c then "" else String c ""
      | kept => String c kept
      end
  end.

(** [s.strip()]. *)
Definition strip (s : string) : string := rstrip (lstrip s).

(** [len(s)]. *)
Definition len (s : string) : Z := Z.of_nat (String.length s).

(** Truth value of a string: [bool(s)], false exactly on [""]. *)
Definition truthy (s : string) : bool :=
  match s with "" => false | String _ _ => true end.

(** [c] occurs in [s]. *)
Fixpoint has_char (c : ascii) (s : string) : bool :=
  match s with
  | "" => false
  | String d rest => Ascii.eqb d c || has_char c rest
  end.

(** [x] occurs in [s]: the propositional reading of [contains]. *)
Definition occurs_in (x s : string) : Prop :=
  exists before after, s = before ++ x ++ after.

(** [str(x)] of an optional string inside an f-string. *)
Definition str_of_option (x : option string) : string :=
  match x with Some s => s | None => "None" end.

(** [str(n)] of an integer: its decimal digits, with a minus sign when
    negative. *)
Definition str_of_int (n : Z) : string := NilZero.string_of_int (Z.to_int n).

End PyStr.

(** ** Exceptions, results and the trace of collaborator calls *)

(** The exceptions the checker raises itself, and those that reach it from
    [open], from the git accessor and from the plugin factory. *)
Inductive Exn : Type :=
| InvalidCommandArgumentError (msg : string)
| NoCommitsFoundError (msg : string)
| InvalidCommitMessageError (msg : string)
| OSError (filename : string)
| ProcessError
| ConfigurationError.

Inductive result (A : Type) : Type :=
| Ok (a : A)
| Raise (e : Exn).

Arguments Ok {A} a.
Arguments Raise {A} e.

(** A call the checker makes on [self.cz] or on [out]. *)
Inductive Event : Type :=
| CallSchemaPattern
| CallValidate (commit_msg : string) (pattern : option string)
    (allow_abort : bool) (allowed_prefixes : list string) (max_msg_length : Z)
| CallFormat
| OutSuccess (text : string).

(** A computation that records its calls and either returns or raises. *)
Definition Run (A : Type) : Type := (list Event * result A)%type.

Definition ret {A} (a : A) : Run A := ([], Ok a).

Definition raise {A} (e : Exn) : Run A := ([], Raise e).

Definition emit (ev : Event) : Run unit := ([ev], Ok tt).

Definition lift {A} (r : result A) : Run A := ([], r).

Definition bind {A B} (m : Run A) (k : A -> Run B) : Run B :=
  match m with
  | (t, Raise e) => (t, Raise e)
  | (t, Ok a) => let (t', r) := k a in ((t ++ t')%list, r)
  end.

Notation "x <- m ;; k" := (bind m (fun x => k))
  (at level 61, m at next level, right associativity).

Notation "m ;;; k" := (bind m (fun _ => k))
  (at level 61, right associativity).

Definition trace {A} (m : Run A) : list Event := fst m.

Definition outcome {A} (m : Run A) : result A := snd m.

(** ** Collaborators outside the checker *)

(** [git.GitCommit], as the checker builds it. *)
Record GitCommit : Type := mkGitCommit {
  rev : string;
  title : string;
  body : string
}.

(** The [re] module: [re_match pattern s] is [bool(re.match(pattern, s))]
    for a pattern that compiles. *)
Class Re : Type := {
  re_match : string -> string -> bool
}.

(** The [git] module: the [message] property of a commit and
    [get_commits(end=...)], [None] when the git command fails. *)
Class Git : Type := {
  message : GitCommit -> string;
  get_commits : option string -> option (list GitCommit)
}.

(** The process: [sys.stdin.isatty()], [sys.stdin.read()] and
    [open(path, encoding=...).read()], [None] when the file cannot be
    read. *)
Class Sys : Type := {
  stdin_isatty : bool;
  stdin_read : string;
  open_read : string -> string -> option string
}.

(** [config.settings], the keys the checker reads. *)
Record BaseConfig : Type := {
  settings_allow_abort : bool;
  settings_allowed_prefixes : list string;
  settings_encoding : string
}.

(** The rule plugin as the checker uses it: the three methods it calls on
    [self.cz]. *)
Record Commitizen : Type := {
  schema_pattern : option string;
  validate_commit_message :
    string -> option string -> bool -> list string -> Z -> bool * list string;
  format_exception_message : list (GitCommit * list string) -> string
}.

(** [factory.commiter_factory], [None] when the configured name is
    unknown. *)
Class Factory : Type := {
  commiter_factory : BaseConfig -> option Commitizen
}.

(** ** [commitizen/cz/base.py]: class [BaseCommitizen] *)

Module BaseCommitizen.
Import PyStr.

(** [BaseCommitizen.validate_commit_message]. *)
Definition validate_commit_message `{Re} (commit_msg : string)
    (pattern : option string) (allow_abort : bool)
    (allowed_prefixes : list string) (max_msg_length : Z)
  : bool * list string :=
  if negb (truthy commit_msg) then (allow_abort, [])
  else
    match pattern with
    | None => (true, [])
    | Some pattern =>
        if existsb (startswith commit_msg) allowed_prefixes then (true, [])
        else
          let matched := (re_match pattern commit_msg, []) in
          if negb (max_msg_length =? 0)%Z then
            let msg_len := len (strip (partition_head LF commit_msg)) in
            if (msg_len >? max_msg_length)%Z then (false, []) else matched
          else matched
    end.

(** One line of the report: [f'commit "{commit.rev}": "{commit.message}"']. *)
Definition displayed_msg `{Git} (commit : GitCommit) : string :=
  "commit " ++ dquote ++ rev commit ++ dquote ++ ": "
  ++ dquote ++ message commit ++ dquote.

(** [BaseCommitizen.format_exception_message]. The last line formats the
    bound method [self.schema_pattern] itself, not its result:
    [schema_pattern_repr] is that object's text. *)
Definition format_exception_message `{Git} (schema_pattern_repr : string)
    (ill_formated_commits : list (GitCommit * list string)) : string :=
  let displayed_msgs_content :=
    join nl (map (fun entry => displayed_msg (fst entry)) ill_formated_commits) in
  "commit validation: failed!" ++ nl
  ++ "please enter a commit message in the commitizen format." ++ nl
  ++ displayed_msgs_content ++ nl
  ++ "pattern: " ++ schema_pattern_repr.

(** A rule plugin that overrides [schema_pattern] only. *)
Definition plugin `{Re} `{Git} (pattern : option string)
    (schema_pattern_repr : string) : Commitizen :=
  Build_Commitizen pattern validate_commit_message
    (format_exception_message schema_pattern_repr).

(** [BaseCommitizen.process_commit]: [commit.split("\n")[0]]. Indexing
    an empty list raises [IndexError], here [None]. *)
Definition process_commit (commit : string) : option string :=
  nth_error (split LF commit) 0.

End BaseCommitizen.

(** ** [commitizen/commands/check.py]: class [Check] *)

Module Check.
Import PyStr.

(** The flags of the command line, [arguments.get(key)]: [None] stands
    for a key that is absent or holds [None]. *)
Record Arguments : Type := {
  arg_commit_msg_file : option string;
  arg_message : option string;
  arg_rev_range : option string;
  arg_allow_abort : option bool;
  arg_message_length_limit : option Z;
  arg_allowed_prefixes : option (list string)
}.

(** The attributes of a constructed [Check]. *)
Record t : Type := {
  commit_msg_file : option string;
  commit_msg : option string;
  rev_range : option string;
  allow_abort : bool;
  max_msg_length : Z;
  allowed_prefixes : list string;
  config : BaseConfig;
  encoding : string;
  cz : Commitizen
}.

Definition is_not_None {A} (x : option A) : bool :=
  match x with Some _ => true | None => false end.

(** [sum(arg is not None for arg in (...))]. *)
Definition num_exclusive_args_provided
    (commit_msg_file commit_msg rev_range : option string) : nat :=
  length (filter is_not_None [commit_msg_file; commit_msg; rev_range]).

Definition exclusive_args_message : string :=
  "Only one of --rev-range, --message, and --commit-msg-file is permitted by check command! "
  ++ "See 'cz check -h' for more information".

(** [Check._valid_command_argument], on the three attributes it reads: it
    returns the value [self.commit_msg] has afterwards. *)
Definition _valid_command_argument `{Sys}
    (commit_msg_file commit_msg rev_range : option string)
  : result (option string) :=
  let n := num_exclusive_args_provided commit_msg_file commit_msg rev_range in
  if Nat.eqb n 0 && negb stdin_isatty then Ok (Some stdin_read)
  else if negb (Nat.eqb n 1) then
    Raise (InvalidCommandArgumentError exclusive_args_message)
  else Ok commit_msg.

(** [Check.__init__]. *)
Definition __init__ `{Sys} `{Factory} (config : BaseConfig)
    (arguments : Arguments) : result t :=
  let commit_msg_file := arg_commit_msg_file arguments in
  let commit_msg := arg_message arguments in
  let rev_range := arg_rev_range arguments in
  let allow_abort :=
    match arg_allow_abort arguments with
    | Some b => b
    | None => settings_allow_abort config
    end in
  let max_msg_length :=
    match arg_message_length_limit arguments with
    | Some n => n
    | None => 0%Z
    end in
  let allowed_prefixes :=
    match arg_allowed_prefixes arguments with
    | Some l => l
    | None => settings_allowed_prefixes config
    end in
  match _valid_command_argument commit_msg_file commit_msg rev_range with
  | Raise e => Raise e
  | Ok commit_msg =>
      match commiter_factory config with
      | None => Raise ConfigurationError
      | Some cz =>
          Ok {| commit_msg_file := commit_msg_file;
                commit_msg := commit_msg;
                rev_range := rev_range;
                allow_abort := allow_abort;
                max_msg_length := max_msg_length;
                allowed_prefixes := allowed_prefixes;
                config := config;
                encoding := settings_encoding config;
                cz := cz |}
      end
  end.

(** The marker [git commit --verbose] writes above the diff. *)
Definition delimiter : string :=
  "# ------------------------ >8 ------------------------".

(** The [for] loop of [_filter_comments]: [lines] is the list appended to,
    [todo] what is left of [msg.split("\n")]. *)
Fixpoint filter_loop (todo lines : list string) : list string :=
  match todo with
  | [] => lines
  | line :: rest =>
      if contains delimiter line then lines
      else if negb (startswith line "#") then filter_loop rest (lines ++ [line])%list
      else filter_loop rest lines
  end.

(** [Check._filter_comments]. *)
Definition _filter_comments (msg : string) : string :=
  join nl (filter_loop (split LF msg) []).

(** The text [_get_commits] wraps, when a file or a message is given. *)
Definition read_msg `{Sys} (self : t) : result (option string) :=
  match commit_msg_file self with
  | Some path =>
      match open_read path (encoding self) with
      | Some text => Ok (Some text)
      | None => Raise (OSError path)
      end
  | None => Ok (commit_msg self)
  end.

(** [Check._get_commits]. *)
Definition _get_commits `{Git} `{Sys} (self : t) : result (list GitCommit) :=
  match read_msg self with
  | Raise e => Raise e
  | Ok (Some msg) =>
      Ok [ {| rev := ""; title := ""; body := _filter_comments msg |} ]
  | Ok None =>
      match get_commits (rev_range self) with
      | Some commits => Ok commits
      | None => Raise ProcessError
      end
  end.

(** [self.cz.schema_pattern()]. *)
Definition call_schema_pattern (self : t) : Run (option string) :=
  emit CallSchemaPattern ;;; ret (schema_pattern (cz self)).

(** [self.cz.validate_commit_message(commit.message, pattern, ...)]. *)
Definition call_validate `{Git} (self : t) (pattern : option string)
    (commit : GitCommit) : Run (bool * list string) :=
  emit (CallValidate (message commit) pattern (allow_abort self)
          (allowed_prefixes self) (max_msg_length self)) ;;;
  ret (validate_commit_message (cz self) (message commit) pattern
         (allow_abort self) (allowed_prefixes self) (max_msg_length self)).

(** The list comprehension of [__call__]: every commit is validated in
    turn, the failed ones are kept with their reasons. *)
Fixpoint ill_formated `{Git} (self : t) (pattern : option string)
    (commits : list GitCommit) : Run (list (GitCommit * list string)) :=
  match commits with
  | [] => ret []
  | commit :: rest =>
      check <- call_validate self pattern commit ;;
      others <- ill_formated self pattern rest ;;
      ret (if negb (fst check) then (commit, snd check) :: others else others)
  end.

Definition no_commit_message (self : t) : string :=
  "No commit found with range: '" ++ str_of_option (rev_range self) ++ "'".

Definition success_message : string := "Commit validation: successful!".

(** [Check.__call__]. *)
Definition __call__ `{Git} `{Sys} (self : t) : Run unit :=
  commits <- lift (_get_commits self) ;;
  match commits with
  | [] => raise (NoCommitsFoundError (no_commit_message self))
  | _ :: _ => ret tt
  end ;;;
  pattern <- call_schema_pattern self ;;
  ill_formated_commits <- ill_formated self pattern commits ;;
  match ill_formated_commits with
  | _ :: _ =>
      emit CallFormat ;;;
      raise (InvalidCommitMessageError
               (format_exception_message (cz self) ill_formated_commits))
  | [] => emit (OutSuccess success_message)
  end.

End Check.

(** ** [BaseCommitizen.__init__] and the settings dictionary *)

Module PyDict.

(** The values found in [config.settings]. *)
#[warnings="-register-all"]
Inductive PyVal : Type :=
| VNone
| VBool (b : bool)
| VInt (n : Z)
| VStr (s : string)
| VList (items : list PyVal)
| VTuple (items : list PyVal).

(** [bool(v)]. *)
Definition truth (v : PyVal) : bool :=
  match v with
  | VNone => false
  | VBool b => b
  | VInt n => negb (n =? 0)%Z
  | VStr s => PyStr.truthy s
  | VList items | VTuple items =>
      match items with [] => false | _ :: _ => true end
  end.

(** A dictionary with string keys, in insertion order. *)
Definition dict : Type := list (string * PyVal).

(** [d.get(key)]: [None] for a missing key. *)
Fixpoint get (key : string) (d : dict) : PyVal :=
  match d with
  | [] => VNone
  | (k, v) :: rest => if String.eqb k key then v else get key rest
  end.

(** [d.update({key: value})]: the value of an existing key is replaced in
    place, a new key is added at the end. *)
Fixpoint update (key : string) (value : PyVal) (d : dict) : dict :=
  match d with
  | [] => [(key, value)]
  | (k, v) :: rest =>
      if String.eqb k key then (k, value) :: rest
      else (k, v) :: update key value rest
  end.

End PyDict.

Module BaseInit.
Import PyDict.

Definition style_entry (name value : string) : PyVal :=
  VTuple [VStr name; VStr value].

(** [BaseCommitizen.default_style_config]. *)
Definition default_style_config : PyVal :=
  VList [ style_entry "qmark" "fg:#ff9d00 bold";
          style_entry "question" "bold";
          style_entry "answer" "fg:#ff9d00 bold";
          style_entry "pointer" "fg:#ff9d00 bold";
          style_entry "highlighted" "fg:#ff9d00 bold";
          style_entry "selected" "fg:#cc5454";
          style_entry "separator" "fg:#cc5454";
          style_entry "instruction" "";
          style_entry "text" "";
          style_entry "disabled" "fg:#858585 italic" ].

(** [BaseCommitizen.__init__], as the change it makes to
    [config.settings]. *)
Definition __init__ (settings : dict) : dict :=
  if negb (truth (get "style" settings))
  then update "style" default_style_config settings
  else settings.

End BaseInit.

(** ** [tests/conftest.py]: class [ValidationCz], a plugin that overrides
    the validator and the report *)

Module ValidationCz.
Import PyStr.

Definition pattern_text : string :=
  "^(?P<issue_nb>[A-Z]{3}-\d+): (?P<commit>.*)$".

(** [ValidationCz.validate_commit_message]: the base algorithm with a
    reason on every failing return. *)
Definition validate_commit_message `{Re} (commit_msg : string)
    (pattern : option string) (allow_abort : bool)
    (allowed_prefixes : list string) (max_msg_length : Z)
  : bool * list string :=
  if negb (truthy commit_msg) then
    (allow_abort, if allow_abort then [] else ["commit message is empty"])
  else
    match pattern with
    | None => (true, [])
    | Some pattern =>
        if existsb (startswith commit_msg) allowed_prefixes then (true, [])
        else
          let matched :=
            let pattern_match := re_match pattern commit_msg in
            if negb pattern_match then
              (false, ["commit message does not match pattern " ++ pattern])
            else (true, []) in
          if negb (max_msg_length =? 0)%Z then
            let msg_len := len (strip (partition_head LF commit_msg)) in
            if (msg_len >? max_msg_length)%Z then
              (false, ["commit message is too long. Max length is "
                       ++ str_of_int max_msg_length])
            else matched
          else matched
    end.

(** The text the three adjacent literals of an entry form; [.join] is
    called on the whole of it, so it is the separator of the errors. *)
Definition entry_separator `{Git} (commit : GitCommit) : string :=
  "commit " ++ dquote ++ rev commit ++ dquote ++ ": "
  ++ dquote ++ message commit ++ dquote ++ nl
  ++ "errors:" ++ nl
  ++ nl.

(** One entry of the report. *)
Definition displayed_msg `{Git} (commit : GitCommit) (errors : list string)
  : string :=
  join (entry_separator commit) (map (fun error => "- " ++ error) errors).

(** [ValidationCz.format_exception_message]; [schema_pattern_repr] is the
    text of the bound method, as in the base class. *)
Definition format_exception_message `{Git} (schema_pattern_repr : string)
    (ill_formated_commits : list (GitCommit * list string)) : string :=
  let displayed_msgs_content :=
    join nl (map (fun entry => displayed_msg (fst entry) (snd entry))
               ill_formated_commits) in
  "commit validation: failed!" ++ nl
  ++ "please enter a commit message in the commitizen format." ++ nl
  ++ displayed_msgs_content ++ nl
  ++ "pattern: " ++ schema_pattern_repr.

Definition plugin `{Re} `{Git} (schema_pattern_repr : string) : Commitizen :=
  Build_Commitizen (Some pattern_text) validate_commit_message
    (format_exception_message schema_pattern_repr).

End ValidationCz.

(** ** Declarative readings of the comment filter *)

Module FilterSpec.
Import PyStr.

(** The lines before the first one on which [stop] holds. *)
Fixpoint take_until (stop : string -> bool) (ls : list string) : list string :=
  match ls with
  | [] => []
  | l :: rest => if stop l then [] else l :: take_until stop rest
  end.

Definition is_comment (line : string) : bool := startswith line "#".

(** Stop at the first line that contains the marker, drop the comment
    lines before it. *)
Definition kept_lines (ls : list string) : list string :=
  filter (fun l => negb (is_comment l))
    (take_until (contains Check.delimiter) ls).

(** The filter as the specification words it: the scan stops only at a
    line whose content is exactly the marker. *)
Definition filter_comments_exact_marker (msg : string) : string :=
  join nl (filter (fun l => negb (is_comment l))
             (take_until (String.eqb Check.delimiter) (split LF msg))).

(** A line the loop appends when it meets it. *)
Definition clean_line (l : string) : bool :=
  negb (contains Check.delimiter l) && negb (is_comment l).

(** A message with no comment line and no line that carries the marker. *)
Definition clean (msg : string) : bool :=
  forallb clean_line (split LF msg).

(** The example of the specification. *)
Definition example_msg : string :=
  "feat: x" ++ nl ++ "# comment" ++ nl ++ "body" ++ nl
  ++ "# ------------------------ >8 ------------------------" ++ nl
  ++ "diff --git a b".

(** A message whose marker line is indented. *)
Definition indented_marker_msg : string :=
  "feat: x" ++ nl ++ "  " ++ Check.delimiter ++ nl ++ "diff --git a b".

(** A message made of comment lines only. *)
Definition only_comments (msg : string) : bool :=
  forallb is_comment (split LF msg).

End FilterSpec.

(** ** Notions used to state the validation properties *)

Module ValidateSpec.
Import PyStr.

(** The trimmed first line of a message, as step 4 measures it. *)
Definition first_line_len (commit_msg : string) : Z :=
  len (strip (partition_head LF commit_msg)).

(** [m] starts with one of the prefixes. *)
Definition exempt (commit_msg : string) (allowed_prefixes : list string) : Prop :=
  exists p, In p allowed_prefixes /\ startswith commit_msg p = true.

End ValidateSpec.

(** ** Notions used to state the properties of the checker *)

Module EngineSpec.

(** The validation of one commit by the plugin of [self]. *)
Definition check_of `{Git} (self : Check.t) (commit : GitCommit) : bool * list string :=
  validate_commit_message (Check.cz self) (message commit)
    (schema_pattern (Check.cz self)) (Check.allow_abort self)
    (Check.allowed_prefixes self) (Check.max_msg_length self).

(** The call that validates one commit. *)
Definition validation_of `{Git} (self : Check.t) (commit : GitCommit) : Event :=
  CallValidate (message commit) (schema_pattern (Check.cz self))
    (Check.allow_abort self) (Check.allowed_prefixes self)
    (Check.max_msg_length self).

(** The commits that fail, in the order of the sequence, with their reasons. *)
Definition failures `{Git} (self : Check.t) (commits : list GitCommit)
  : list (GitCommit * list string) :=
  map (fun c => (c, snd (check_of self c)))
    (filter (fun c => negb (fst (check_of self c))) commits).

(** FileReference or InlineMessage mode, with [raw] the text obtained. *)
Definition raw_text `{Sys} (self : Check.t) (raw : string) : Prop :=
  (exists path, Check.commit_msg_file self = Some path
                /\ open_read path (Check.encoding self) = Some raw)
  \/ (Check.commit_msg_file self = None /\ Check.commit_msg self = Some raw).

(** The record that wraps a message given inline or in a file. *)
Definition synthetic (msg : string) : GitCommit :=
  {| rev := ""; title := ""; body := msg |}.

(** The number of sources given on the command line. *)
Definition sources (arguments : Check.Arguments) : nat :=
  Check.num_exclusive_args_provided (Check.arg_commit_msg_file arguments)
    (Check.arg_message arguments) (Check.arg_rev_range arguments).

Definition invalid_argument : Exn :=
  InvalidCommandArgumentError Check.exclusive_args_message.

(** The source selection [_valid_command_argument] accepts. *)
Definition valid_selection `{Sys} (arguments : Check.Arguments) : Prop :=
  sources arguments = 1 \/ (sources arguments = 0 /\ stdin_isatty = false).

End EngineSpec.

(** ** Concrete collaborators, for running the model *)

Module Sample.

(** A regular-expression engine for patterns without metacharacters: a
    literal matches at the start of a string when it is a prefix of it. *)
Definition literal_re : Re := {| re_match := fun pattern s => prefix pattern s |}.

(** A repository for the sample runs: [get_commits] returns [history], and
    the message of a commit is its body. ([git.GitCommit.message] is not
    among the sources; the properties below hold for every [Git].) *)
Definition repository (history : list GitCommit) : Git :=
  {| message := body; get_commits := fun _ => Some history |}.

Fixpoint lookup (path : string) (files : list (string * string)) : option string :=
  match files with
  | [] => None
  | (name, text) :: rest => if String.eqb name path then Some text else lookup path rest
  end.

(** A process with the given terminal state, standard input and files. *)
Definition process (tty : bool) (input : string)
    (files : list (string * string)) : Sys :=
  {| stdin_isatty := tty; stdin_read := input;
     open_read := fun path _ => lookup path files |}.

(** A factory that knows one plugin. *)
Definition registry (cz : Commitizen) : Factory :=
  {| commiter_factory := fun _ => Some cz |}.

Definition settings : BaseConfig :=
  {| settings_allow_abort := false;
     settings_allowed_prefixes := ["Merge"; "Revert"; "fixup!"; "amend!"];
     settings_encoding := "utf-8" |}.

(** A plugin with the base validator and the pattern ["feat: "]. *)
Definition feat_plugin (history : list GitCommit) : Commitizen :=
  @BaseCommitizen.plugin literal_re (repository history) (Some "feat: ")
    "<bound method schema_pattern>".

Definition no_arguments : Check.Arguments :=
  {| Check.arg_commit_msg_file := None; Check.arg_message := None;
     Check.arg_rev_range := None; Check.arg_allow_abort := None;
     Check.arg_message_length_limit := None;
     Check.arg_allowed_prefixes := None |}.

(** A constructed checker over [feat_plugin]. *)
Definition checker (history : list GitCommit) (file message range : option string)
    (abort : bool) : Check.t :=
  {| Check.commit_msg_file := file; Check.commit_msg := message;
     Check.rev_range := range; Check.allow_abort := abort;
     Check.max_msg_length := 0%Z; Check.allowed_prefixes := ["Merge"];
     Check.config := settings; Check.encoding := "utf-8";
     Check.cz := feat_plugin history |}.

Definition two_commits : list GitCommit :=
  [ {| rev := "a1b2c3"; title := "feat: add x"; body := "feat: add x" |};
    {| rev := "d4e5f6"; title := "bad message"; body := "bad message" |} ].

(** Both [--message] (an empty string) and [--rev-range] are given. *)
Definition message_and_range : Check.Arguments :=
  {| Check.arg_commit_msg_file := None; Check.arg_message := Some "";
     Check.arg_rev_range := Some "HEAD~2..HEAD"; Check.arg_allow_abort := None;
     Check.arg_message_length_limit := None;
     Check.arg_allowed_prefixes := None |}.

(** What git leaves in the message file when the commit is aborted. *)
Definition aborted_files : list (string * string) :=
  [("COMMIT_EDITMSG", "# Please enter the commit message")].

End Sample.

(** * Properties *)

(** ** Strings *)

Module PyStrFacts.
Import PyStr.

Lemma prefix_refl_app (x rest : string) : prefix x (x ++ rest) = true.
Proof.
  induction x as [|c x IH]; simpl.
  - destruct rest; reflexivity.
  - destruct (ascii_dec c c) as [_|ne]; [exact IH | contradiction].
Qed.

Lemma contains_prefix (x s : string) : prefix x s = true -> contains x s = true.
Proof.
  intros Hp. destruct s; cbn [contains]; rewrite Hp; reflexivity.
Qed.

Lemma contains_cons (x s : string) (c : ascii) :
  contains x s = true -> contains x (String c s) = true.
Proof.
  intros Hc. cbn [contains]. rewrite Hc. apply orb_true_r.
Qed.

Lemma contains_app_l (a x rest : string) :
  contains x rest = true -> contains x (a ++ rest) = true.
Proof.
  intros Hc. induction a as [|c a IH]; simpl append.
  - exact Hc.
  - apply contains_cons, IH.
Qed.

Lemma contains_middle (a x b : string) : contains x (a ++ x ++ b) = true.
Proof.
  apply contains_app_l, contains_prefix, prefix_refl_app.
Qed.

Lemma occurs_in_contains (x s : string) :
  occurs_in x s -> contains x s = true.
Proof.
  intros (a & b & ->). apply contains_middle.
Qed.

Lemma append_assoc (a b c : string) : (a ++ b) ++ c = a ++ b ++ c.
Proof.
  induction a as [|ch a IH]; simpl; [reflexivity|]. rewrite IH. reflexivity.
Qed.

Lemma append_nil_r (a : string) : a ++ "" = a.
Proof.
  induction a as [|ch a IH]; simpl; [reflexivity|]. rewrite IH. reflexivity.
Qed.

Lemma occurs_in_refl (x : string) : occurs_in x x.
Proof. exists "", "". simpl. symmetry. apply append_nil_r. Qed.

Lemma occurs_in_app_l (x s a : string) : occurs_in x s -> occurs_in x (a ++ s).
Proof.
  intros (p & q & ->). exists (a ++ p), q. symmetry. apply append_assoc.
Qed.

Lemma occurs_in_app_r (x s b : string) : occurs_in x s -> occurs_in x (s ++ b).
Proof.
  intros (p & q & ->). exists p, (q ++ b).
  rewrite !append_assoc. reflexivity.
Qed.

Lemma occurs_in_trans (x y s : string) :
  occurs_in x y -> occurs_in y s -> occurs_in x s.
Proof.
  intros Hxy (p & q & ->). apply occurs_in_app_l, occurs_in_app_r, Hxy.
Qed.

Lemma occurs_in_join (sep x : string) (parts : list string) :
  In x parts -> occurs_in x (join sep parts).
Proof.
  induction parts as [|y parts IH]; [intros []|].
  intros Hin. destruct parts as [|z parts].
  - destruct Hin as [->|[]]. apply occurs_in_refl.
  - change (join sep (y :: z :: parts)) with (y ++ sep ++ join sep (z :: parts)).
    destruct Hin as [->|Hin].
    + apply occurs_in_app_r, occurs_in_refl.
    + apply occurs_in_app_l, occurs_in_app_l, IH, Hin.
Qed.

Lemma split_not_nil (sep : ascii) (s : string) : split sep s <> [].
Proof.
  destruct s as [|c s]; simpl; [discriminate|].
  destruct (Ascii.eqb c sep); [discriminate|].
  destruct (split sep s); discriminate.
Qed.

Lemma split_no_sep (sep : ascii) (s : string) :
  has_char sep s = false -> split sep s = [s].
Proof.
  induction s as [|c s IH]; simpl; [reflexivity|].
  intros Hn. apply orb_false_iff in Hn as [Hc Hs].
  rewrite Hc, (IH Hs). reflexivity.
Qed.

Lemma split_app_sep (sep : ascii) (x rest : string) :
  has_char sep x = false ->
  split sep (x ++ String sep rest) = x :: split sep rest.
Proof.
  induction x as [|c x IH]; simpl.
  - intros _. rewrite Ascii.eqb_refl. reflexivity.
  - intros Hn. apply orb_false_iff in Hn as [Hc Hx].
    rewrite Hc, (IH Hx). reflexivity.
Qed.

Lemma split_lines_no_sep (sep : ascii) (s : string) :
  Forall (fun l => has_char sep l = false) (split sep s).
Proof.
  induction s as [|c s IH]; simpl.
  - constructor; [reflexivity|constructor].
  - destruct (Ascii.eqb c sep) eqn:Hc.
    + constructor; [reflexivity|exact IH].
    + destruct (split sep s) as [|l ls]; inversion IH; subst.
      * constructor; [simpl; rewrite Hc; reflexivity|constructor].
      * constructor; [simpl; rewrite Hc; assumption|assumption].
Qed.

Lemma split_join (sep : ascii) (ls : list string) :
  ls <> [] -> Forall (fun l => has_char sep l = false) ls ->
  split sep (join (String sep "") ls) = ls.
Proof.
  induction ls as [|x ls IH]; [congruence|].
  intros _ Hall. inversion Hall as [|? ? Hx Hls]; subst.
  destruct ls as [|y ls].
  - simpl. apply split_no_sep, Hx.
  - change (join (String sep "") (x :: y :: ls))
      with (x ++ String sep (join (String sep "") (y :: ls))).
    rewrite (split_app_sep _ _ _ Hx), IH; [reflexivity|discriminate|exact Hls].
Qed.

Lemma join_split (sep : ascii) (s : string) :
  join (String sep "") (split sep s) = s.
Proof.
  induction s as [|c s IH]; simpl; [reflexivity|].
  destruct (Ascii.eqb c sep) eqn:Hc.
  - apply Ascii.eqb_eq in Hc; subst c.
    pose proof (split_not_nil sep s) as Hne.
    destruct (split sep s) as [|l ls]; [congruence|].
    change (join (String sep "") ("" :: l :: ls))
      with (String sep (join (String sep "") (l :: ls))).
    rewrite IH. reflexivity.
  - pose proof (split_not_nil sep s) as Hne.
    destruct (split sep s) as [|l ls]; [congruence|].
    rewrite <- IH. destruct ls; reflexivity.
Qed.

Lemma truthy_false (s : string) : truthy s = false <-> s = "".
Proof. destruct s; simpl; split; congruence. Qed.

End PyStrFacts.

(** ** The comment filter *)

Module FilterFacts.
Import PyStr PyStrFacts FilterSpec.

(** The accumulator of the loop only grows at its end. *)
Lemma filter_loop_acc (todo lines : list string) :
  Check.filter_loop todo lines = (lines ++ kept_lines todo)%list.
Proof.
  revert lines. induction todo as [|line rest IH]; intros lines; simpl.
  - symmetry. apply app_nil_r.
  - unfold kept_lines. simpl.
    destruct (contains Check.delimiter line); simpl.
    + symmetry. apply app_nil_r.
    + unfold is_comment.
      destruct (startswith line "#"); simpl; rewrite IH; unfold kept_lines.
      * reflexivity.
      * rewrite <- app_assoc. reflexivity.
Qed.

Lemma filter_comments_kept_lines (msg : string) :
  Check._filter_comments msg = join nl (kept_lines (split LF msg)).
Proof.
  unfold Check._filter_comments. rewrite filter_loop_acc. reflexivity.
Qed.

Lemma take_until_incl (stop : string -> bool) (ls : list string) (l : string) :
  In l (take_until stop ls) -> In l ls /\ stop l = false.
Proof.
  induction ls as [|x ls IH]; simpl; [intros []|].
  destruct (stop x) eqn:Hx; [intros []|].
  intros [<-|Hin]; [split; [left; reflexivity|exact Hx]|].
  destruct (IH Hin) as [H1 H2]. split; [right|]; assumption.
Qed.

(** Every line the filter keeps is a line of the input and is clean. *)
Lemma kept_lines_clean (ls : list string) (l : string) :
  In l (kept_lines ls) -> In l ls /\ clean_line l = true.
Proof.
  unfold kept_lines. intros Hin. apply filter_In in Hin as [Hin Hc].
  apply take_until_incl in Hin as [Hin Hd]. split; [exact Hin|].
  unfold clean_line. rewrite Hd, Hc. reflexivity.
Qed.

(** A list of clean lines goes through the filter untouched. *)
Lemma kept_lines_fixed (ls : list string) :
  forallb clean_line ls = true -> kept_lines ls = ls.
Proof.
  induction ls as [|l ls IH]; [reflexivity|].
  simpl. intros Hall. apply andb_true_iff in Hall as [Hl Hls].
  unfold clean_line in Hl. apply andb_true_iff in Hl as [Hd Hc].
  apply negb_true_iff in Hd. unfold kept_lines. simpl. rewrite Hd. simpl.
  rewrite Hc. f_equal. apply IH, Hls.
Qed.

Lemma filter_comments_clean (msg : string) :
  clean msg = true -> Check._filter_comments msg = msg.
Proof.
  intros Hc. rewrite filter_comments_kept_lines.
  rewrite (kept_lines_fixed _ Hc). apply join_split.
Qed.

(** What the filter returns is clean. *)
Lemma filter_comments_is_clean (msg : string) :
  clean (Check._filter_comments msg) = true.
Proof.
  rewrite filter_comments_kept_lines. unfold clean.
  destruct (kept_lines (split LF msg)) as [|k ks] eqn:Hk; [reflexivity|].
  assert (Hin : forall l, In l (k :: ks) -> In l (split LF msg) /\ clean_line l = true).
  { intros l Hl. rewrite <- Hk in Hl. apply kept_lines_clean, Hl. }
  rewrite split_join.
  - apply forallb_forall. intros l Hl. apply Hin, Hl.
  - discriminate.
  - apply Forall_forall. intros l Hl.
    pose proof (split_lines_no_sep LF msg) as Hno.
    rewrite Forall_forall in Hno. apply Hno, Hin, Hl.
Qed.

(** C5, as the claim words it, fails: the claimed filter stops only at a
    line that is exactly the marker, while [_filter_comments] stops at any
    line that contains it. On a message whose marker line is indented the
    code returns ["feat: x"] and the claimed filter returns the input. *)
Lemma filter_comments_exact_marker_fails :
  ~ (forall msg : string,
       Check._filter_comments msg = filter_comments_exact_marker msg).
Proof.
  intros Hall. specialize (Hall indented_marker_msg).
  vm_compute in Hall. discriminate Hall.
Qed.

(** C5, amended: for every input the filter splits it on newline, stops at
    the first line that contains the marker (dropping it and all later
    lines), drops each earlier line exactly when it starts with [#], and
    joins the kept lines with newline; on the example of the claim it
    returns ["feat: x\nbody"]. *)
Theorem filter_comments_spec :
  (forall msg : string,
     Check._filter_comments msg
     = join nl (filter (fun l => negb (startswith l "#"))
                  (take_until (contains Check.delimiter) (split LF msg))))
  /\ Check._filter_comments example_msg = "feat: x" ++ nl ++ "body".
Proof.
  split.
  - intros msg. apply filter_comments_kept_lines.
  - vm_compute. reflexivity.
Qed.

(** C6: the filter is idempotent, and a message with no comment line and
    no line carrying the marker is returned unchanged. *)
Theorem filter_comments_idempotent :
  (forall msg : string,
     Check._filter_comments (Check._filter_comments msg)
     = Check._filter_comments msg)
  /\ (forall msg : string, clean msg = true -> Check._filter_comments msg = msg).
Proof.
  split.
  - intros msg. apply filter_comments_clean, filter_comments_is_clean.
  - exact filter_comments_clean.
Qed.

Lemma filter_comments_idempotent_witness :
  Check._filter_comments (Check._filter_comments example_msg)
  = Check._filter_comments example_msg
  /\ Check._filter_comments ("feat: x" ++ nl ++ "body")
     = "feat: x" ++ nl ++ "body".
Proof.
  split.
  - apply (proj1 filter_comments_idempotent example_msg).
  - apply (proj2 filter_comments_idempotent ("feat: x" ++ nl ++ "body")).
    vm_compute. reflexivity.
Defined.

(** A message made of comment lines only is filtered to the empty one. *)
Lemma filter_comments_only_comments (msg : string) :
  only_comments msg = true -> Check._filter_comments msg = "".
Proof.
  intros Hc. rewrite filter_comments_kept_lines.
  unfold only_comments in Hc. unfold kept_lines.
  induction (split LF msg) as [|l ls IH]; [reflexivity|].
  simpl in Hc. apply andb_true_iff in Hc as [Hl Hls]. simpl.
  destruct (contains Check.delimiter l); [reflexivity|].
  simpl. rewrite Hl. simpl. apply IH, Hls.
Qed.

End FilterFacts.

(** ** The validation algorithm *)

Module ValidateFacts.
Import PyStr PyStrFacts ValidateSpec.

Section Validate.
Context `{engine : Re}.

Lemma exempt_existsb (m : string) (ps : list string) :
  exempt m ps <-> existsb (startswith m) ps = true.
Proof.
  unfold exempt. rewrite existsb_exists. reflexivity.
Qed.

Lemma not_exempt_existsb (m : string) (ps : list string) :
  ~ exempt m ps -> existsb (startswith m) ps = false.
Proof.
  intros Hn. destruct (existsb (startswith m) ps) eqn:He; [|reflexivity].
  exfalso. apply Hn, exempt_existsb, He.
Qed.

Lemma truthy_nonempty (m : string) : m <> "" -> truthy m = true.
Proof. destruct m; [congruence|reflexivity]. Qed.

(** C1, amended: with no pattern every non-empty message passes, whatever
    the other arguments; the empty message passes exactly when
    [allow_abort] is set. *)
Theorem validate_null_pattern (m : string) (allow_abort : bool)
    (allowed_prefixes : list string) (max_msg_length : Z) :
  (m <> "" ->
   BaseCommitizen.validate_commit_message m None allow_abort
     allowed_prefixes max_msg_length = (true, []))
  /\ BaseCommitizen.validate_commit_message "" None allow_abort
       allowed_prefixes max_msg_length = (allow_abort, []).
Proof.
  split; [|reflexivity].
  intros Hm. unfold BaseCommitizen.validate_commit_message.
  rewrite (truthy_nonempty m Hm). reflexivity.
Qed.

(** C2: a non-empty message that starts with an allowed prefix passes, for
    every pattern, [allow_abort] and length limit. *)
Theorem validate_allowed_prefix (m : string) (pattern : option string)
    (allow_abort : bool) (allowed_prefixes : list string) (max_msg_length : Z) :
  m <> "" ->
  exempt m allowed_prefixes ->
  BaseCommitizen.validate_commit_message m pattern allow_abort
    allowed_prefixes max_msg_length = (true, []).
Proof.
  intros Hm Hex. unfold BaseCommitizen.validate_commit_message.
  rewrite (truthy_nonempty m Hm). simpl.
  destruct pattern as [p|]; [|reflexivity].
  apply exempt_existsb in Hex. rewrite Hex. reflexivity.
Qed.

(** C3, amended: with a pattern given, a message whose trimmed first line
    is longer than a positive limit and that starts with no allowed prefix
    fails, whatever the pattern matches. *)
Theorem validate_too_long (m pattern : string) (allow_abort : bool)
    (allowed_prefixes : list string) (max_msg_length : Z) :
  (0 < max_msg_length)%Z ->
  (max_msg_length < first_line_len m)%Z ->
  ~ exempt m allowed_prefixes ->
  BaseCommitizen.validate_commit_message m (Some pattern) allow_abort
    allowed_prefixes max_msg_length = (false, []).
Proof.
  intros Hpos Hlen Hex. unfold BaseCommitizen.validate_commit_message.
  destruct m as [|c m].
  - exfalso. unfold first_line_len in Hlen. simpl in Hlen. unfold len in Hlen.
    simpl in Hlen. lia.
  - simpl truthy. simpl negb. cbv iota.
    rewrite (not_exempt_existsb _ _ Hex).
    fold (first_line_len (String c m)).
    destruct (max_msg_length =? 0)%Z eqn:Hz; [apply Z.eqb_eq in Hz; lia|].
    simpl negb. cbv iota.
    destruct (first_line_len (String c m) >? max_msg_length)%Z eqn:Hgt;
      [reflexivity|].
    rewrite Z.gtb_ltb in Hgt. apply Z.ltb_ge in Hgt. lia.
Qed.

(** C4: the empty message returns [(allow_abort, [])], whatever the
    pattern, the prefixes and the length limit. *)
Theorem validate_empty_message (pattern : option string) (allow_abort : bool)
    (allowed_prefixes : list string) (max_msg_length : Z) :
  BaseCommitizen.validate_commit_message "" pattern allow_abort
    allowed_prefixes max_msg_length = (allow_abort, []).
Proof. reflexivity. Qed.

End Validate.

(** C1, as the claim words it, fails: the empty message with [allow_abort]
    off is rejected although the pattern is null. *)
Lemma validate_null_pattern_empty_fails :
  ~ (forall (engine : Re) (m : string) (allow_abort : bool)
       (allowed_prefixes : list string) (max_msg_length : Z),
       BaseCommitizen.validate_commit_message m None allow_abort
         allowed_prefixes max_msg_length = (true, [])).
Proof.
  intros Hall.
  specialize (Hall Sample.literal_re "" false [] 0%Z).
  vm_compute in Hall. discriminate Hall.
Qed.

Lemma validate_null_pattern_witness :
  "chore" <> ""
  /\ @BaseCommitizen.validate_commit_message Sample.literal_re
       "chore" None false [] 3%Z = (true, []).
Proof.
  split; [discriminate|].
  apply (proj1 (@validate_null_pattern Sample.literal_re "chore" false [] 3%Z)).
  discriminate.
Defined.

(** The prefix exemption on a message that is too long and does not match
    the pattern. *)
Lemma validate_allowed_prefix_witness :
  @BaseCommitizen.validate_commit_message Sample.literal_re
    "Merge branch 'x'" (Some "feat: ") false ["Merge"] 5%Z = (true, []).
Proof.
  apply (@validate_allowed_prefix Sample.literal_re).
  - discriminate.
  - exists "Merge". split; [left; reflexivity|reflexivity].
Defined.

(** C3, as the claim words it, fails: with a null pattern a message over
    the limit passes. *)
Lemma validate_too_long_null_pattern_fails :
  ~ (forall (engine : Re) (m : string) (pattern : option string)
       (allow_abort : bool) (allowed_prefixes : list string)
       (max_msg_length : Z),
       (0 < max_msg_length)%Z ->
       (max_msg_length < first_line_len m)%Z ->
       ~ exempt m allowed_prefixes ->
       fst (BaseCommitizen.validate_commit_message m pattern allow_abort
              allowed_prefixes max_msg_length) = false).
Proof.
  intros Hall.
  specialize (Hall Sample.literal_re "feat: a long subject" None false [] 5%Z).
  assert (Hf : true = false).
  { apply Hall.
    - reflexivity.
    - reflexivity.
    - intros (p & [] & _). }
  discriminate Hf.
Qed.

Lemma validate_too_long_witness :
  @BaseCommitizen.validate_commit_message Sample.literal_re
    "feat: a long subject" (Some "feat: ") false ["Merge"] 5%Z = (false, []).
Proof.
  apply (@validate_too_long Sample.literal_re).
  - reflexivity.
  - reflexivity.
  - intros (p & [<-|[]] & Hp). discriminate Hp.
Defined.

End ValidateFacts.

(** ** The checker *)

Module EngineFacts.
Import PyStr PyStrFacts FilterSpec EngineSpec.

Section Engine.
Context `{repo : Git} `{proc : Sys} `{plugins : Factory}.

(** The comprehension validates every commit, in order, and keeps exactly
    the failed ones. *)
Lemma ill_formated_run (self : Check.t) (commits : list GitCommit) :
  Check.ill_formated self (schema_pattern (Check.cz self)) commits
  = (map (validation_of self) commits, Ok (failures self commits)).
Proof.
  induction commits as [|c rest IH]; [reflexivity|].
  cbn [Check.ill_formated]. rewrite IH.
  unfold failures. cbn [filter map]. fold (check_of self c).
  unfold Check.call_validate. fold (validation_of self c) (check_of self c).
  unfold bind, emit, ret. cbn [map app].
  rewrite app_nil_r.
  destruct (negb (fst (check_of self c))); reflexivity.
Qed.

(** [__call__] once the commits are resolved and not empty. *)
Lemma call_run (self : Check.t) (commits : list GitCommit) :
  Check._get_commits self = Ok commits -> commits <> [] ->
  Check.__call__ self
  = match failures self commits with
    | [] =>
        ((CallSchemaPattern :: map (validation_of self) commits
          ++ [OutSuccess Check.success_message])%list, Ok tt)
    | _ :: _ =>
        ((CallSchemaPattern :: map (validation_of self) commits
          ++ [CallFormat])%list,
         Raise (InvalidCommitMessageError
                  (format_exception_message (Check.cz self)
                     (failures self commits))))
    end.
Proof.
  intros Hget Hne. unfold Check.__call__. rewrite Hget.
  destruct commits as [|c rest]; [congruence|].
  unfold lift, Check.call_schema_pattern.
  cbn [bind ret raise emit app].
  rewrite ill_formated_run.
  destruct (failures self (c :: rest)); cbn; rewrite ?app_nil_r; reflexivity.
Qed.

Lemma get_commits_raw (self : Check.t) (raw : string) :
  raw_text self raw ->
  Check._get_commits self = Ok [synthetic (Check._filter_comments raw)].
Proof.
  unfold Check._get_commits, Check.read_msg.
  intros [(path & -> & ->)|[-> ->]]; reflexivity.
Qed.

(** C7: construction raises [InvalidCommandArgumentError] when more than
    one of the three sources is given (a source counts as soon as it is
    not [None]), and when none is given on an interactive terminal; when
    none is given and the input is not interactive, the whole standard
    input becomes the inline message and this error is not raised. *)
Theorem init_source_selection (config : BaseConfig)
    (arguments : Check.Arguments) :
  (1 < sources arguments ->
   Check.__init__ config arguments = Raise invalid_argument)
  /\ (sources arguments = 0 -> stdin_isatty = true ->
      Check.__init__ config arguments = Raise invalid_argument)
  /\ (sources arguments = 0 -> stdin_isatty = false ->
      Check._valid_command_argument (Check.arg_commit_msg_file arguments)
        (Check.arg_message arguments) (Check.arg_rev_range arguments)
      = Ok (Some stdin_read)
      /\ (forall cz, commiter_factory config = Some cz ->
          exists self,
            Check.__init__ config arguments = Ok self
            /\ Check.commit_msg self = Some stdin_read
            /\ Check.commit_msg_file self = None
            /\ Check.rev_range self = None
            /\ Check._get_commits self
               = Ok [synthetic (Check._filter_comments stdin_read)])).
Proof.
  unfold sources, Check.__init__, Check._valid_command_argument.
  destruct arguments as [file msg range abort limit prefixes]; cbn.
  split; [|split].
  - intros Hn.
    destruct (Nat.eqb _ 0) eqn:H0; [apply Nat.eqb_eq in H0; lia|].
    destruct (Nat.eqb _ 1) eqn:H1; [apply Nat.eqb_eq in H1; lia|].
    reflexivity.
  - intros Hn Htty. rewrite Hn, Htty. reflexivity.
  - intros Hn Htty. rewrite Hn, Htty. split; [reflexivity|].
    intros cz Hcz. rewrite Hcz. cbn.
    eexists. split; [reflexivity|]. cbn.
    destruct file; [discriminate Hn|].
    destruct msg; [discriminate Hn|].
    destruct range; [discriminate Hn|].
    repeat split; reflexivity.
Qed.

(** C8: when the resolved sequence is empty the checker raises
    [NoCommitsFoundError], its message quotes the requested range, and no
    call on the plugin has been made. *)
Theorem call_no_commits (self : Check.t) :
  Check._get_commits self = Ok [] ->
  Check.__call__ self
  = ([], Raise (NoCommitsFoundError
                  ("No commit found with range: '"
                   ++ str_of_option (Check.rev_range self) ++ "'")))
  /\ contains (str_of_option (Check.rev_range self))
       (Check.no_commit_message self) = true.
Proof.
  intros Hget. split.
  - unfold Check.__call__. rewrite Hget. reflexivity.
  - apply contains_middle.
Qed.

(** The base report names every commit it is given. *)
Lemma format_exception_message_names (repr : string)
    (ill : list (GitCommit * list string)) (c : GitCommit) :
  In c (map fst ill) ->
  occurs_in (BaseCommitizen.displayed_msg c)
    (BaseCommitizen.format_exception_message repr ill).
Proof.
  intros Hin. unfold BaseCommitizen.format_exception_message.
  do 4 apply occurs_in_app_l. apply occurs_in_app_r.
  apply occurs_in_join. rewrite <- map_map. apply in_map, Hin.
Qed.

(** C9: on a resolved sequence that is not empty, every commit is
    validated, in order, whether or not an earlier one failed; when some
    commit fails the checker raises [InvalidCommitMessageError] with the
    report of the failed commits, which are the failing ones in their
    original order, and the base report shows the revision and the message
    of each of them; when none fails it emits the success notice and
    returns. *)
Theorem call_validates_all (self : Check.t) (commits : list GitCommit) :
  Check._get_commits self = Ok commits ->
  commits <> [] ->
  (failures self commits <> [] ->
   Check.__call__ self
   = ((CallSchemaPattern :: map (validation_of self) commits
       ++ [CallFormat])%list,
      Raise (InvalidCommitMessageError
               (format_exception_message (Check.cz self)
                  (failures self commits)))))
  /\ (failures self commits = [] ->
      Check.__call__ self
      = ((CallSchemaPattern :: map (validation_of self) commits
          ++ [OutSuccess Check.success_message])%list, Ok tt))
  /\ map fst (failures self commits)
     = filter (fun c => negb (fst (check_of self c))) commits
  /\ (forall repr c, In c (map fst (failures self commits)) ->
      let report :=
        BaseCommitizen.format_exception_message repr (failures self commits) in
      contains (rev c) report = true /\ contains (message c) report = true).
Proof.
  intros Hget Hne. rewrite (call_run self commits Hget Hne).
  repeat split.
  - intros Hf. destruct (failures self commits); [congruence|reflexivity].
  - intros ->. reflexivity.
  - unfold failures. rewrite map_map. cbn [fst]. apply map_id.
  - apply occurs_in_contains.
    apply occurs_in_trans with (y := BaseCommitizen.displayed_msg c).
    + unfold BaseCommitizen.displayed_msg.
      do 2 apply occurs_in_app_l. apply occurs_in_app_r, occurs_in_refl.
    + apply format_exception_message_names. assumption.
  - apply occurs_in_contains.
    apply occurs_in_trans with (y := BaseCommitizen.displayed_msg c).
    + unfold BaseCommitizen.displayed_msg.
      do 6 apply occurs_in_app_l. apply occurs_in_app_r, occurs_in_refl.
    + apply format_exception_message_names. assumption.
Qed.

(** A file that cannot be read: the error of [open] leaves [_get_commits]
    and no record is built. *)
Lemma get_commits_unreadable_file (self : Check.t) (path : string) :
  Check.commit_msg_file self = Some path ->
  open_read path (Check.encoding self) = None ->
  Check._get_commits self = Raise (OSError path)
  /\ Check.__call__ self = ([], Raise (OSError path)).
Proof.
  intros Hfile Hopen.
  assert (Hget : Check._get_commits self = Raise (OSError path)).
  { unfold Check._get_commits, Check.read_msg. rewrite Hfile, Hopen. reflexivity. }
  split; [exact Hget|]. unfold Check.__call__. rewrite Hget. reflexivity.
Qed.

(** In FileReference and InlineMessage mode [__call__] never raises
    [NoCommitsFoundError]. *)
Lemma call_not_no_commits (self : Check.t) (msg : string) :
  Check.commit_msg_file self <> None \/ Check.commit_msg self <> None ->
  outcome (Check.__call__ self) <> Raise (NoCommitsFoundError msg).
Proof.
  intros Hmode.
  assert (Hcases : (exists raw, raw_text self raw)
                   \/ (exists path, Check._get_commits self = Raise (OSError path))).
  { unfold raw_text, Check._get_commits, Check.read_msg.
    destruct (Check.commit_msg_file self) as [path|] eqn:Hfile.
    - destruct (open_read path (Check.encoding self)) as [text|] eqn:Hopen.
      + left. exists text. left. exists path. split; [reflexivity|exact Hopen].
      + right. exists path. reflexivity.
    - destruct (Check.commit_msg self) as [m|] eqn:Hmsg.
      + left. exists m. right. split; reflexivity.
      + destruct Hmode as [H|H]; congruence. }
  destruct Hcases as [(raw & Hraw)|(path & Herr)].
  - rewrite (call_run self _ (get_commits_raw self raw Hraw)); [|discriminate].
    destruct (failures self _); discriminate.
  - unfold Check.__call__. rewrite Herr. discriminate.
Qed.

(** C10: in FileReference and InlineMessage mode (the text read from the
    file, the message given, or the standard input taken as the message)
    the resolution returns exactly one record with empty revision and
    title that wraps the filtered text, also when the filtered text is
    empty; [NoCommitsFoundError] is never raised in these modes; and a text
    of comment lines only is validated as the empty message, which the
    base validator passes exactly when [allow_abort] is set. *)
Theorem get_commits_synthetic (self : Check.t) :
  (forall raw, raw_text self raw ->
     Check._get_commits self
     = Ok [ {| rev := ""; title := ""; body := Check._filter_comments raw |} ])
  /\ (Check.commit_msg_file self <> None \/ Check.commit_msg self <> None ->
      forall msg,
        outcome (Check.__call__ self) <> Raise (NoCommitsFoundError msg))
  /\ (forall (engine : Re) raw,
        raw_text self raw ->
        only_comments raw = true ->
        message (synthetic "") = "" ->
        validate_commit_message (Check.cz self)
        = BaseCommitizen.validate_commit_message ->
        Check._get_commits self = Ok [synthetic ""]
        /\ Check.__call__ self
           = (if Check.allow_abort self
              then ([CallSchemaPattern; validation_of self (synthetic "");
                     OutSuccess Check.success_message], Ok tt)
              else ([CallSchemaPattern; validation_of self (synthetic "");
                     CallFormat],
                    Raise (InvalidCommitMessageError
                             (format_exception_message (Check.cz self)
                                [(synthetic "", [])]))))
        /\ validation_of self (synthetic "")
           = CallValidate "" (schema_pattern (Check.cz self))
               (Check.allow_abort self) (Check.allowed_prefixes self)
               (Check.max_msg_length self)).
Proof.
  split; [|split].
  - intros raw Hraw. apply (get_commits_raw self raw Hraw).
  - intros Hmode msg. apply call_not_no_commits, Hmode.
  - intros engine raw Hraw Honly Hmsg Hbase.
    pose proof (get_commits_raw self raw Hraw) as Hget.
    rewrite (FilterFacts.filter_comments_only_comments raw Honly) in Hget.
    split; [exact Hget|]. split.
    + assert (Hcheck : check_of self (synthetic "") = (Check.allow_abort self, [])).
      { unfold check_of. rewrite Hmsg, Hbase. reflexivity. }
      rewrite (call_run self _ Hget); [|discriminate].
      unfold failures. cbn [filter]. rewrite Hcheck. cbn [fst].
      destruct (Check.allow_abort self); cbn [negb map app];
        rewrite ?Hcheck; reflexivity.
    + unfold validation_of. rewrite Hmsg. reflexivity.
Qed.

End Engine.

(** *** Runs of the checker on concrete inputs *)

Lemma init_source_selection_witness :
  @Check.__init__ (Sample.process true "" []) (Sample.registry (Sample.feat_plugin []))
    Sample.settings Sample.message_and_range
  = Raise invalid_argument
  /\ exists self,
       @Check.__init__ (Sample.process false "feat: piped" [])
         (Sample.registry (Sample.feat_plugin [])) Sample.settings Sample.no_arguments
       = Ok self
       /\ Check.commit_msg self = Some "feat: piped".
Proof.
  split.
  - apply (proj1 (@init_source_selection (Sample.repository [])
                    (Sample.process true "" [])
                    (Sample.registry (Sample.feat_plugin []))
                    Sample.settings Sample.message_and_range)).
    vm_compute. lia.
  - destruct (proj2 (proj2 (@init_source_selection (Sample.repository [])
                    (Sample.process false "feat: piped" [])
                    (Sample.registry (Sample.feat_plugin []))
                    Sample.settings Sample.no_arguments)) eq_refl eq_refl)
      as [_ Hinit].
    destruct (Hinit (Sample.feat_plugin []) eq_refl) as (self & Hself & Hmsg & _).
    exists self. split; [exact Hself|exact Hmsg].
Defined.

Lemma call_no_commits_witness :
  @Check.__call__ (Sample.repository []) (Sample.process true "" [])
    (Sample.checker [] None None (Some "v1.0..HEAD") false)
  = ([], Raise (NoCommitsFoundError "No commit found with range: 'v1.0..HEAD'")).
Proof.
  apply (proj1 (@call_no_commits (Sample.repository [])
                  (Sample.process true "" [])
                  (Sample.checker [] None None (Some "v1.0..HEAD") false)
                  eq_refl)).
Defined.

(** Two commits, the second one malformed: both are validated and the
    report names the second only. *)
Lemma call_validates_all_witness :
  @Check.__call__ (Sample.repository Sample.two_commits) (Sample.process true "" [])
    (Sample.checker Sample.two_commits None None (Some "HEAD~2..HEAD") false)
  = ([CallSchemaPattern;
      CallValidate "feat: add x" (Some "feat: ") false ["Merge"] 0%Z;
      CallValidate "bad message" (Some "feat: ") false ["Merge"] 0%Z;
      CallFormat],
     Raise (InvalidCommitMessageError
              (@BaseCommitizen.format_exception_message
                 (Sample.repository Sample.two_commits) "<bound method schema_pattern>"
                 [({| rev := "d4e5f6"; title := "bad message";
                      body := "bad message" |}, [])]))).
Proof.
  apply (proj1 (@call_validates_all (Sample.repository Sample.two_commits)
                  (Sample.process true "" [])
                  (Sample.checker Sample.two_commits None None (Some "HEAD~2..HEAD") false)
                  Sample.two_commits eq_refl ltac:(discriminate))).
  vm_compute. discriminate.
Defined.

(** A message file that holds comment lines only, with [allow_abort] off:
    one record is resolved, it is validated as the empty message and the
    check fails. *)
Lemma get_commits_synthetic_witness :
  @Check._get_commits (Sample.repository [])
    (Sample.process true "" Sample.aborted_files)
    (Sample.checker [] (Some "COMMIT_EDITMSG") None None false)
  = Ok [ {| rev := ""; title := ""; body := "" |} ]
  /\ @Check.__call__ (Sample.repository [])
       (Sample.process true "" Sample.aborted_files)
       (Sample.checker [] (Some "COMMIT_EDITMSG") None None false)
     = ([CallSchemaPattern;
         CallValidate "" (Some "feat: ") false ["Merge"] 0%Z;
         CallFormat],
        Raise (InvalidCommitMessageError
                 (@BaseCommitizen.format_exception_message
                    (Sample.repository []) "<bound method schema_pattern>"
                    [({| rev := ""; title := ""; body := "" |}, [])]))).
Proof.
  destruct (proj2 (proj2 (@get_commits_synthetic (Sample.repository [])
                    (Sample.process true "" Sample.aborted_files)
                    (Sample.checker [] (Some "COMMIT_EDITMSG") None None false)))
             Sample.literal_re "# Please enter the commit message")
    as (Hget & Hcall & _).
  - left. exists "COMMIT_EDITMSG". split; reflexivity.
  - reflexivity.
  - reflexivity.
  - reflexivity.
  - split; [exact Hget|exact Hcall].
Defined.

End EngineFacts.

(** * Further properties of the source *)

(** ** More on strings *)

Module PyStrMore.
Import PyStr PyStrFacts.

Lemma split_app_lines (sep : ascii) (a b : string) :
  split sep (a ++ String sep b) = (split sep a ++ split sep b)%list.
Proof.
  induction a as [|c a IH]; simpl.
  - rewrite Ascii.eqb_refl. reflexivity.
  - destruct (Ascii.eqb c sep).
    + rewrite IH. reflexivity.
    + rewrite IH. pose proof (split_not_nil sep a) as Hne.
      destruct (split sep a) as [|l ls]; [congruence|reflexivity].
Qed.

(** A text without separator stays inside the first line. *)
Lemma split_head_prefix (sep : ascii) (d rest : string) :
  has_char sep d = false ->
  exists tail lines, split sep (d ++ rest) = (d ++ tail) :: lines.
Proof.
  induction d as [|c d IH]; simpl.
  - intros _. pose proof (split_not_nil sep rest) as Hne.
    destruct (split sep rest) as [|l ls]; [congruence|].
    exists l, ls. reflexivity.
  - intros Hn. apply orb_false_iff in Hn as [Hc Hd]. rewrite Hc.
    destruct (IH Hd) as (tail & lines & ->).
    exists tail, lines. reflexivity.
Qed.

Lemma split_has_char (sep c : ascii) (s : string) :
  has_char c s = false ->
  Forall (fun l => has_char c l = false) (split sep s).
Proof.
  induction s as [|d s IH]; simpl.
  - intros _. constructor; [reflexivity|constructor].
  - intros Hn. apply orb_false_iff in Hn as [Hd Hs]. specialize (IH Hs).
    destruct (Ascii.eqb d sep).
    + constructor; [reflexivity|exact IH].
    + destruct (split sep s) as [|l ls]; inversion IH; subst.
      * constructor; [simpl; rewrite Hd; reflexivity|constructor].
      * constructor; [simpl; rewrite Hd; assumption|assumption].
Qed.

Lemma prefix_has_char (c : ascii) (d l : string) :
  prefix (String c d) l = true -> has_char c l = true.
Proof.
  destruct l as [|e l]; simpl; [discriminate|].
  destruct (ascii_dec c e) as [->|]; [|discriminate].
  intros _. rewrite Ascii.eqb_refl. reflexivity.
Qed.

Lemma contains_has_char (c : ascii) (d l : string) :
  contains (String c d) l = true -> has_char c l = true.
Proof.
  induction l as [|e l IH]; cbn [contains].
  - simpl. discriminate.
  - intros Hc. apply orb_true_iff in Hc as [Hp|Hc].
    + apply (prefix_has_char c d), Hp.
    + simpl. rewrite (IH Hc). apply orb_true_r.
Qed.


Lemma partition_head_length (sep : ascii) (s : string) :
  String.length (partition_head sep s) <= String.length s.
Proof.
  induction s as [|c s IH]; simpl; [lia|].
  destruct (Ascii.eqb c sep); simpl; lia.
Qed.




(** The first element of [split] is the head of [partition]. *)
Lemma split_head_partition (sep : ascii) (s : string) :
  exists lines, split sep s = partition_head sep s :: lines.
Proof.
  induction s as [|c s IH]; simpl.
  - exists []. reflexivity.
  - destruct (Ascii.eqb c sep).
    + exists (split sep s). reflexivity.
    + destruct IH as (lines & ->). exists lines. reflexivity.
Qed.

End PyStrMore.

(** ** More on the comment filter *)

Module FilterMore.
Import PyStr PyStrFacts PyStrMore FilterSpec.

Lemma delimiter_one_line : has_char LF Check.delimiter = false.
Proof. vm_compute. reflexivity. Qed.

Lemma kept_lines_stop (before after : list string) (line : string) :
  contains Check.delimiter line = true ->
  kept_lines (before ++ line :: after) = kept_lines before.
Proof.
  intros Hstop. unfold kept_lines.
  induction before as [|l ls IH]; simpl.
  - rewrite Hstop. reflexivity.
  - destruct (contains Check.delimiter l); [reflexivity|].
    simpl. rewrite IH. reflexivity.
Qed.

(** X1: whatever follows a line that starts with the marker has no
    influence on the result; the filter returns what it returns on the
    text above that line. *)
Theorem filter_comments_ignores_diff (above below : string) :
  Check._filter_comments (above ++ nl ++ Check.delimiter ++ below)
  = Check._filter_comments above.
Proof.
  rewrite !FilterFacts.filter_comments_kept_lines.
  change (above ++ nl ++ Check.delimiter ++ below)
    with (above ++ String LF (Check.delimiter ++ below)).
  rewrite split_app_lines.
  destruct (split_head_prefix LF Check.delimiter below delimiter_one_line)
    as (tail & lines & ->).
  rewrite kept_lines_stop; [reflexivity|].
  apply contains_prefix, prefix_refl_app.
Qed.

(** X2: no line of the result starts with [#] and none contains the
    marker. *)
Theorem filter_comments_output_clean (msg : string) (line : string) :
  In line (split LF (Check._filter_comments msg)) ->
  startswith line "#" = false /\ contains Check.delimiter line = false.
Proof.
  intros Hin. pose proof (FilterFacts.filter_comments_is_clean msg) as Hclean.
  unfold clean in Hclean. rewrite forallb_forall in Hclean.
  specialize (Hclean line Hin). unfold clean_line, is_comment in Hclean.
  apply andb_true_iff in Hclean as [Hd Hc].
  apply negb_true_iff in Hd, Hc. split; assumption.
Qed.

(** X3: the filter invents no text: every line of the result is a line of
    the input, or the empty line of an empty result. *)
Theorem filter_comments_lines_from_input (msg : string) (line : string) :
  In line (split LF (Check._filter_comments msg)) ->
  In line (split LF msg) \/ Check._filter_comments msg = "".
Proof.
  rewrite FilterFacts.filter_comments_kept_lines.
  destruct (kept_lines (split LF msg)) as [|k ks] eqn:Hk; [right; reflexivity|].
  intros Hin. left.
  assert (Hsub : forall l, In l (k :: ks) -> In l (split LF msg)).
  { intros l Hl. rewrite <- Hk in Hl.
    apply FilterFacts.kept_lines_clean in Hl. apply Hl. }
  rewrite split_join in Hin.
  - apply Hsub, Hin.
  - discriminate.
  - apply Forall_forall. intros l Hl.
    pose proof (split_lines_no_sep LF msg) as Hno.
    rewrite Forall_forall in Hno. apply Hno, Hsub, Hl.
Qed.

(** X4: a message in which [#] does not occur is returned unchanged. *)
Theorem filter_comments_without_hash (msg : string) :
  has_char "#"%char msg = false -> Check._filter_comments msg = msg.
Proof.
  intros Hno. apply FilterFacts.filter_comments_clean.
  unfold clean. apply forallb_forall. intros l Hl.
  pose proof (split_has_char LF "#"%char msg Hno) as Hall.
  rewrite Forall_forall in Hall. specialize (Hall l Hl).
  unfold clean_line, is_comment, startswith.
  destruct (contains Check.delimiter l) eqn:Hd.
  - apply (contains_has_char "#"%char) in Hd. congruence.
  - destruct (prefix "#" l) eqn:Hp; [|reflexivity].
    apply (prefix_has_char "#"%char "") in Hp. congruence.
Qed.

Lemma filter_comments_without_hash_witness :
  Check._filter_comments ("feat: x" ++ nl ++ nl ++ "body")
  = "feat: x" ++ nl ++ nl ++ "body".
Proof.
  apply filter_comments_without_hash. vm_compute. reflexivity.
Defined.

Lemma filter_comments_output_clean_witness :
  startswith "body" "#" = false /\ contains Check.delimiter "body" = false.
Proof.
  apply (filter_comments_output_clean example_msg "body").
  vm_compute. right. left. reflexivity.
Defined.

Lemma filter_comments_lines_from_input_witness :
  In "body" (split LF example_msg) \/ Check._filter_comments example_msg = "".
Proof.
  apply (filter_comments_lines_from_input example_msg "body").
  vm_compute. right. left. reflexivity.
Defined.

End FilterMore.

(** ** More on the validators and the reports *)

Module ValidateMore.
Import PyStr PyStrFacts PyStrMore ValidateSpec.

Section Validators.
Context `{engine : Re}.

Lemma nonempty_truthy (m : string) : m <> "" -> truthy m = true.
Proof. destruct m; [congruence|reflexivity]. Qed.

Lemma not_exempt_false (m : string) (ps : list string) :
  ~ exempt m ps -> existsb (startswith m) ps = false.
Proof.
  intros Hn. destruct (existsb (startswith m) ps) eqn:He; [|reflexivity].
  exfalso. apply Hn. apply existsb_exists in He. exact He.
Qed.

(** X5: the base validator never gives a reason: the second component of
    its result is the empty list on every input. *)
Theorem validate_reasons_empty (m : string) (pattern : option string)
    (allow_abort : bool) (allowed_prefixes : list string) (max_msg_length : Z) :
  snd (BaseCommitizen.validate_commit_message m pattern allow_abort
         allowed_prefixes max_msg_length) = [].
Proof.
  unfold BaseCommitizen.validate_commit_message.
  destruct (truthy m); [|reflexivity]. simpl.
  destruct pattern as [p|]; [|reflexivity].
  destruct (existsb (startswith m) allowed_prefixes); [reflexivity|].
  destruct (max_msg_length =? 0)%Z; simpl; [reflexivity|].
  destruct (_ >? _)%Z; reflexivity.
Qed.

(** X6: for a non-empty message with no allowed prefix, when the limit is
    0 or the trimmed first line fits in it, the verdict is that of the
    regular expression. *)
Theorem validate_regex_decides (m pattern : string) (allow_abort : bool)
    (allowed_prefixes : list string) (max_msg_length : Z) :
  m <> "" ->
  ~ exempt m allowed_prefixes ->
  (max_msg_length = 0 \/ first_line_len m <= max_msg_length)%Z ->
  BaseCommitizen.validate_commit_message m (Some pattern) allow_abort
    allowed_prefixes max_msg_length = (re_match pattern m, []).
Proof.
  intros Hm Hex Hlen. unfold BaseCommitizen.validate_commit_message.
  rewrite (nonempty_truthy m Hm), (not_exempt_false _ _ Hex). simpl.
  fold (first_line_len m).
  destruct (max_msg_length =? 0)%Z eqn:Hz; simpl; [reflexivity|].
  apply Z.eqb_neq in Hz. destruct Hlen as [H0|Hle]; [contradiction|].
  destruct (first_line_len m >? max_msg_length)%Z eqn:Hgt; [|reflexivity].
  rewrite Z.gtb_ltb in Hgt. apply Z.ltb_lt in Hgt. lia.
Qed.

(** X7: a negative limit is not "no limit": every non-empty message with
    no allowed prefix is rejected under a pattern, whatever it matches. *)
Theorem validate_negative_limit (m pattern : string) (allow_abort : bool)
    (allowed_prefixes : list string) (max_msg_length : Z) :
  (max_msg_length < 0)%Z ->
  m <> "" ->
  ~ exempt m allowed_prefixes ->
  BaseCommitizen.validate_commit_message m (Some pattern) allow_abort
    allowed_prefixes max_msg_length = (false, []).
Proof.
  intros Hneg Hm Hex. unfold BaseCommitizen.validate_commit_message.
  rewrite (nonempty_truthy m Hm), (not_exempt_false _ _ Hex). simpl.
  fold (first_line_len m).
  destruct (max_msg_length =? 0)%Z eqn:Hz; [apply Z.eqb_eq in Hz; lia|]. simpl.
  destruct (first_line_len m >? max_msg_length)%Z eqn:Hgt; [reflexivity|].
  rewrite Z.gtb_ltb in Hgt. apply Z.ltb_ge in Hgt.
  unfold first_line_len, len in Hgt. lia.
Qed.


(** X9: [allow_abort] matters for the empty message only. *)
Theorem validate_allow_abort_only_empty (m : string) (pattern : option string)
    (abort abort' : bool) (allowed_prefixes : list string) (max_msg_length : Z) :
  m <> "" ->
  BaseCommitizen.validate_commit_message m pattern abort
    allowed_prefixes max_msg_length
  = BaseCommitizen.validate_commit_message m pattern abort'
      allowed_prefixes max_msg_length.
Proof.
  intros Hm. unfold BaseCommitizen.validate_commit_message.
  rewrite (nonempty_truthy m Hm). reflexivity.
Qed.

(** X10: the empty string as an allowed prefix exempts every non-empty
    message, since every string starts with it. *)
Theorem validate_empty_prefix (m : string) (pattern : option string)
    (allow_abort : bool) (allowed_prefixes : list string) (max_msg_length : Z) :
  In "" allowed_prefixes ->
  m <> "" ->
  BaseCommitizen.validate_commit_message m pattern allow_abort
    allowed_prefixes max_msg_length = (true, []).
Proof.
  intros Hin Hm. unfold BaseCommitizen.validate_commit_message.
  rewrite (nonempty_truthy m Hm). simpl.
  destruct pattern as [p|]; [|reflexivity].
  assert (He : existsb (startswith m) allowed_prefixes = true).
  { apply existsb_exists. exists "". split; [exact Hin|].
    unfold startswith. destruct m; reflexivity. }
  rewrite He. reflexivity.
Qed.

(** X11: the validator of [ValidationCz] gives the verdict of the base
    validator on every input; it gives no reason when the message passes
    and exactly one when it fails. *)
Theorem validation_cz_same_verdict (m : string) (pattern : option string)
    (allow_abort : bool) (allowed_prefixes : list string) (max_msg_length : Z) :
  let custom := ValidationCz.validate_commit_message m pattern allow_abort
                  allowed_prefixes max_msg_length in
  fst custom
  = fst (BaseCommitizen.validate_commit_message m pattern allow_abort
           allowed_prefixes max_msg_length)
  /\ List.length (snd custom) = if fst custom then 0 else 1.
Proof.
  unfold ValidationCz.validate_commit_message,
    BaseCommitizen.validate_commit_message.
  destruct (truthy m); simpl.
  - destruct pattern as [p|]; [|split; reflexivity].
    destruct (existsb (startswith m) allowed_prefixes); [split; reflexivity|].
    destruct (max_msg_length =? 0)%Z; simpl.
    + destruct (re_match p m); split; reflexivity.
    + destruct (_ >? _)%Z; [split; reflexivity|].
      destruct (re_match p m); split; reflexivity.
  - destruct allow_abort; split; reflexivity.
Qed.

End Validators.

Section Reports.
Context `{engine : Re} `{repo : Git}.

(** X12: the base report does not show the reasons: it is the same
    whatever reasons come with the failed commits. *)
Theorem format_exception_message_ignores_reasons (repr : string)
    (ill other : list (GitCommit * list string)) :
  map fst ill = map fst other ->
  BaseCommitizen.format_exception_message repr ill
  = BaseCommitizen.format_exception_message repr other.
Proof.
  intros Hsame. unfold BaseCommitizen.format_exception_message.
  rewrite <- (map_map fst BaseCommitizen.displayed_msg ill).
  rewrite <- (map_map fst BaseCommitizen.displayed_msg other).
  rewrite Hsame. reflexivity.
Qed.

(** X13: in the report of [ValidationCz] the entry of a commit that its
    validator rejected is the reason after a dash: the revision and the
    message of the commit are no part of it. *)
Theorem validation_cz_entry (m : string) (pattern : option string)
    (allow_abort : bool) (allowed_prefixes : list string) (max_msg_length : Z) :
  let check := ValidationCz.validate_commit_message m pattern allow_abort
                 allowed_prefixes max_msg_length in
  fst check = false ->
  exists reason,
    snd check = [reason]
    /\ forall commit, ValidationCz.displayed_msg commit (snd check) = "- " ++ reason.
Proof.
  cbv zeta. unfold ValidationCz.validate_commit_message.
  destruct (truthy m); simpl.
  - destruct pattern as [p|]; [|intros H; discriminate H].
    destruct (existsb (startswith m) allowed_prefixes); [intros H; discriminate H|].
    destruct (max_msg_length =? 0)%Z; simpl.
    + destruct (re_match p m); simpl; [intros H; discriminate H|].
      intros _. eexists. split; [reflexivity|]. intros commit. reflexivity.
    + destruct (_ >? _)%Z.
      * intros _. eexists. split; [reflexivity|]. intros commit. reflexivity.
      * destruct (re_match p m); simpl; [intros H; discriminate H|].
        intros _. eexists. split; [reflexivity|]. intros commit. reflexivity.
  - destruct allow_abort; [intros H; discriminate H|].
    intros _. eexists. split; [reflexivity|]. intros commit. reflexivity.
Qed.

End Reports.

(** X14: [process_commit] never fails: it returns the text before the
    first newline, the line whose trimmed length the validator measures;
    that line holds no newline, the commit starts with it, and processing
    it again returns it. *)
Theorem process_commit_first_line (commit : string) :
  BaseCommitizen.process_commit commit = Some (partition_head LF commit)
  /\ has_char LF (partition_head LF commit) = false
  /\ startswith commit (partition_head LF commit) = true
  /\ BaseCommitizen.process_commit (partition_head LF commit)
     = Some (partition_head LF commit).
Proof.
  assert (Hfirst : forall c,
             BaseCommitizen.process_commit c = Some (partition_head LF c)).
  { intros c. unfold BaseCommitizen.process_commit.
    destruct (split_head_partition LF c) as (lines & ->). reflexivity. }
  assert (Hno : has_char LF (partition_head LF commit) = false).
  { induction commit as [|c s IH]; simpl; [reflexivity|].
    destruct (Ascii.eqb c LF) eqn:Hc; [reflexivity|].
    simpl. rewrite Hc. exact IH. }
  split; [apply Hfirst|]. split; [exact Hno|]. split.
  - unfold startswith. induction commit as [|c s IH]; simpl; [reflexivity|].
    destruct (Ascii.eqb c LF) eqn:Hc; [reflexivity|].
    simpl in Hno. rewrite Hc in Hno. simpl in Hno. rewrite Hc in Hno.
    simpl. destruct (ascii_dec c c); [apply IH, Hno|contradiction].
  - rewrite Hfirst. f_equal.
    unfold BaseCommitizen.process_commit in Hfirst.
    pose proof (split_no_sep LF _ Hno) as Hs.
    specialize (Hfirst (partition_head LF commit)). rewrite Hs in Hfirst.
    simpl in Hfirst. congruence.
Qed.

Lemma validate_regex_decides_witness :
  @BaseCommitizen.validate_commit_message Sample.literal_re
    "  feat: add x  " (Some "feat: ") false ["Merge"] 11%Z = (false, []).
Proof.
  apply (@validate_regex_decides Sample.literal_re
           "  feat: add x  " "feat: " false ["Merge"] 11%Z).
  - discriminate.
  - intros (p & [<-|[]] & Hp). discriminate Hp.
  - right. vm_compute. discriminate.
Defined.

Lemma validate_negative_limit_witness :
  @BaseCommitizen.validate_commit_message Sample.literal_re
    "feat: add x" (Some "feat: ") false ["Merge"] (-1)%Z = (false, []).
Proof.
  apply (@validate_negative_limit Sample.literal_re).
  - reflexivity.
  - discriminate.
  - intros (p & [<-|[]] & Hp). discriminate Hp.
Defined.


Lemma validate_allow_abort_only_empty_witness :
  @BaseCommitizen.validate_commit_message Sample.literal_re
    "bad message" (Some "feat: ") true [] 0%Z
  = @BaseCommitizen.validate_commit_message Sample.literal_re
      "bad message" (Some "feat: ") false [] 0%Z.
Proof.
  apply (@validate_allow_abort_only_empty Sample.literal_re). discriminate.
Defined.

Lemma validate_empty_prefix_witness :
  @BaseCommitizen.validate_commit_message Sample.literal_re
    "bad message" (Some "feat: ") false ["Merge"; ""] 3%Z = (true, []).
Proof.
  apply (@validate_empty_prefix Sample.literal_re).
  - right. left. reflexivity.
  - discriminate.
Defined.

Lemma format_exception_message_ignores_reasons_witness :
  @BaseCommitizen.format_exception_message (Sample.repository [])
    "<bound method schema_pattern>" [(EngineSpec.synthetic "bad", ["too long"])]
  = @BaseCommitizen.format_exception_message (Sample.repository [])
      "<bound method schema_pattern>" [(EngineSpec.synthetic "bad", [])].
Proof.
  apply (@format_exception_message_ignores_reasons (Sample.repository [])).
  reflexivity.
Defined.

Lemma validation_cz_entry_witness :
  exists reason,
    snd (@ValidationCz.validate_commit_message Sample.literal_re
           "bad message" (Some "ABC-") false [] 5%Z) = [reason]
    /\ forall commit,
         @ValidationCz.displayed_msg (Sample.repository []) commit
           (snd (@ValidationCz.validate_commit_message Sample.literal_re
                   "bad message" (Some "ABC-") false [] 5%Z))
         = "- " ++ reason.
Proof.
  apply (@validation_cz_entry Sample.literal_re (Sample.repository [])
           "bad message" (Some "ABC-") false [] 5%Z).
  reflexivity.
Defined.

End ValidateMore.

(** ** More on the checker *)

Module EngineMore.
Import PyStr PyStrFacts FilterSpec EngineSpec.

Section Checker.
Context `{repo : Git} `{proc : Sys} `{plugins : Factory}.

(** X15: a constructed checker has exactly one source: one and only one
    of [commit_msg_file], [commit_msg] and [rev_range] is set, also when
    the message came from the standard input. *)
Theorem init_one_source (config : BaseConfig) (arguments : Check.Arguments)
    (self : Check.t) :
  Check.__init__ config arguments = Ok self ->
  Check.num_exclusive_args_provided (Check.commit_msg_file self)
    (Check.commit_msg self) (Check.rev_range self) = 1.
Proof.
  unfold Check.__init__, Check._valid_command_argument.
  destruct arguments as [[f|] [m|] [r|] ab lim pre]; cbn;
    destruct stdin_isatty; cbn;
    destruct (commiter_factory config); intros H;
    try discriminate H; injection H as <-; reflexivity.
Qed.

(** X16: construction raises [ConfigurationError] exactly when the source
    selection is accepted and the factory knows no plugin for the
    configuration: a wrong selection is reported first. *)
Theorem init_configuration_error (config : BaseConfig)
    (arguments : Check.Arguments) :
  Check.__init__ config arguments = Raise ConfigurationError
  <-> valid_selection arguments /\ commiter_factory config = None.
Proof.
  unfold valid_selection, sources, Check.__init__, Check._valid_command_argument.
  destruct arguments as [[f|] [m|] [r|] ab lim pre]; cbn;
    destruct stdin_isatty; cbn;
    destruct (commiter_factory config); split;
    try (intros H; discriminate H);
    try (intros [_ H]; discriminate H);
    try (intros [[H|[H _]] _]; discriminate H);
    try (intros [[H|[_ H]] _]; discriminate H);
    try (intros _; split; [|reflexivity]; (left; reflexivity) || (right; split; reflexivity));
    try reflexivity.
Qed.

(** X17: [NoCommitsFoundError] comes out of a run exactly when no file and
    no message is set and git returns no commit for the range; its text
    is then the one built from [rev_range]. *)
Theorem call_no_commits_iff (self : Check.t) (msg : string) :
  outcome (Check.__call__ self) = Raise (NoCommitsFoundError msg)
  <-> Check.commit_msg_file self = None
      /\ Check.commit_msg self = None
      /\ get_commits (Check.rev_range self) = Some []
      /\ msg = Check.no_commit_message self.
Proof.
  split.
  - intros Hout.
    destruct (Check.commit_msg_file self) as [path|] eqn:Hfile.
    { exfalso. apply (EngineFacts.call_not_no_commits self msg); [|exact Hout].
      left. congruence. }
    destruct (Check.commit_msg self) as [m|] eqn:Hmsg.
    { exfalso. apply (EngineFacts.call_not_no_commits self msg); [|exact Hout].
      right. congruence. }
    assert (Hget : Check._get_commits self
                   = match get_commits (Check.rev_range self) with
                     | Some commits => Ok commits
                     | None => Raise ProcessError
                     end).
    { unfold Check._get_commits, Check.read_msg. rewrite Hfile, Hmsg. reflexivity. }
    destruct (get_commits (Check.rev_range self)) as [[|c rest]|] eqn:Hgit.
    + unfold Check.__call__ in Hout. rewrite Hget in Hout. cbn in Hout.
      injection Hout as <-. repeat split; reflexivity.
    + rewrite (EngineFacts.call_run self _ Hget) in Hout; [|discriminate].
      destruct (failures self (c :: rest)); discriminate Hout.
    + unfold Check.__call__ in Hout. rewrite Hget in Hout. discriminate Hout.
  - intros (Hfile & Hmsg & Hgit & ->).
    unfold Check.__call__, Check._get_commits, Check.read_msg.
    rewrite Hfile, Hmsg, Hgit. reflexivity.
Qed.

Lemma success_not_in_validations (self : Check.t) (commits : list GitCommit)
    (text : string) :
  ~ In (OutSuccess text) (map (validation_of self) commits).
Proof.
  intros Hin. apply in_map_iff in Hin as (c & Hc & _). discriminate Hc.
Qed.

(** X18: the success notice is written exactly when the run returns: a run
    that raises has written none, a run that returns has written one. *)
Theorem call_success_notice_iff (self : Check.t) :
  (exists text, In (OutSuccess text) (trace (Check.__call__ self)))
  <-> outcome (Check.__call__ self) = Ok tt.
Proof.
  destruct (Check._get_commits self) as [[|c rest]|e] eqn:Hget.
  - unfold Check.__call__. rewrite Hget. cbn.
    split; [intros (text & [])|discriminate].
  - rewrite (EngineFacts.call_run self _ Hget); [|discriminate].
    destruct (failures self (c :: rest)); cbn [trace outcome fst snd].
    + split; [reflexivity|]. intros _. exists Check.success_message.
      right. apply in_or_app. right. left. reflexivity.
    + split; [|discriminate]. intros (text & [H|Hin]); [discriminate H|].
      apply in_app_or in Hin as [Hin|[H|[]]]; [|discriminate H].
      exfalso. apply (success_not_in_validations self (c :: rest) text Hin).
  - unfold Check.__call__. rewrite Hget. cbn.
    split; [intros (text & [])|discriminate].
Qed.

Lemma failures_nil_iff (self : Check.t) (commits : list GitCommit) :
  failures self commits = []
  <-> forallb (fun c => fst (check_of self c)) commits = true.
Proof.
  unfold failures. induction commits as [|c rest IH]; cbn; [tauto|].
  destruct (fst (check_of self c)); cbn.
  - exact IH.
  - split; discriminate.
Qed.

(** X19: on a resolved sequence that is not empty, the run returns exactly
    when every commit passes. *)
Theorem call_success_iff_all_pass (self : Check.t) (commits : list GitCommit) :
  Check._get_commits self = Ok commits ->
  commits <> [] ->
  (outcome (Check.__call__ self) = Ok tt
   <-> forall c, In c commits -> fst (check_of self c) = true).
Proof.
  intros Hget Hne. rewrite (EngineFacts.call_run self _ Hget Hne).
  rewrite <- forallb_forall, <- failures_nil_iff.
  destruct (failures self commits); cbn; split; congruence.
Qed.

(** X20: the run depends on the source only through the filtered text: two
    checkers with the same plugin and settings, whose texts (read from a
    file or given inline) filter to the same message, run alike. *)
Theorem call_depends_on_filtered_text (self other : Check.t)
    (raw raw' : string) :
  raw_text self raw ->
  raw_text other raw' ->
  Check._filter_comments raw = Check._filter_comments raw' ->
  Check.cz self = Check.cz other ->
  Check.allow_abort self = Check.allow_abort other ->
  Check.allowed_prefixes self = Check.allowed_prefixes other ->
  Check.max_msg_length self = Check.max_msg_length other ->
  Check.__call__ self = Check.__call__ other.
Proof.
  intros Hraw Hraw' Hsame Hcz Habort Hprefixes Hmax.
  rewrite (EngineFacts.call_run self _ (EngineFacts.get_commits_raw self raw Hraw));
    [|discriminate].
  rewrite (EngineFacts.call_run other _
             (EngineFacts.get_commits_raw other raw' Hraw')); [|discriminate].
  unfold failures, check_of, validation_of.
  rewrite Hsame, Hcz, Habort, Hprefixes, Hmax. reflexivity.
Qed.

End Checker.

Lemma init_one_source_witness :
  exists self,
    @Check.__init__ (Sample.process false "feat: piped" [])
      (Sample.registry (Sample.feat_plugin [])) Sample.settings Sample.no_arguments
    = Ok self
    /\ Check.num_exclusive_args_provided (Check.commit_msg_file self)
         (Check.commit_msg self) (Check.rev_range self) = 1.
Proof.
  eexists. split; [reflexivity|].
  apply (@init_one_source (Sample.process false "feat: piped" [])
           (Sample.registry (Sample.feat_plugin []))
           Sample.settings Sample.no_arguments).
  reflexivity.
Defined.

Lemma call_success_iff_all_pass_witness :
  outcome (@Check.__call__ (Sample.repository Sample.two_commits)
             (Sample.process true "" [])
             (Sample.checker Sample.two_commits None None (Some "HEAD~2..HEAD") false))
  = Ok tt
  <-> (forall c, In c Sample.two_commits ->
       fst (@check_of (Sample.repository Sample.two_commits)
              (Sample.checker Sample.two_commits None None
                 (Some "HEAD~2..HEAD") false) c) = true).
Proof.
  apply (@call_success_iff_all_pass (Sample.repository Sample.two_commits)
           (Sample.process true "" [])
           (Sample.checker Sample.two_commits None None (Some "HEAD~2..HEAD") false)
           Sample.two_commits).
  - reflexivity.
  - discriminate.
Defined.

(** A message file with a comment line and the same message given inline. *)
Lemma call_depends_on_filtered_text_witness :
  @Check.__call__ (Sample.repository [])
    (Sample.process true "" [("MSG", "feat: x" ++ nl ++ "# comment")])
    (Sample.checker [] (Some "MSG") None None false)
  = @Check.__call__ (Sample.repository [])
      (Sample.process true "" [("MSG", "feat: x" ++ nl ++ "# comment")])
      (Sample.checker [] None (Some "feat: x") None false).
Proof.
  apply (@call_depends_on_filtered_text (Sample.repository [])
           (Sample.process true "" [("MSG", "feat: x" ++ nl ++ "# comment")])
           (Sample.checker [] (Some "MSG") None None false)
           (Sample.checker [] None (Some "feat: x") None false)
           ("feat: x" ++ nl ++ "# comment") "feat: x").
  - left. exists "MSG". split; reflexivity.
  - right. split; reflexivity.
  - reflexivity.
  - reflexivity.
  - reflexivity.
  - reflexivity.
  - reflexivity.
Defined.

End EngineMore.

(** ** The settings after [BaseCommitizen.__init__] *)

Module BaseInitFacts.
Import PyDict.

Lemma get_update_same (key : string) (value : PyVal) (d : dict) :
  get key (update key value d) = value.
Proof.
  induction d as [|[k v] rest IH]; simpl.
  - rewrite String.eqb_refl. reflexivity.
  - destruct (String.eqb k key) eqn:Hk; simpl; rewrite Hk; [reflexivity|exact IH].
Qed.

Lemma get_update_other (key other : string) (value : PyVal) (d : dict) :
  other <> key -> get other (update key value d) = get other d.
Proof.
  intros Hne. induction d as [|[k v] rest IH]; simpl.
  - destruct (String.eqb key other) eqn:Hk; [|reflexivity].
    apply String.eqb_eq in Hk. congruence.
  - destruct (String.eqb k key) eqn:Hk; simpl.
    + apply String.eqb_eq in Hk. subst k.
      destruct (String.eqb key other) eqn:Ho; [|reflexivity].
      apply String.eqb_eq in Ho. congruence.
    + rewrite IH. reflexivity.
Qed.

(** X21: after [BaseCommitizen.__init__] the settings always hold a style
    that is not empty: a missing, [None] or empty style is replaced by the
    default one, any other style is kept with the whole dictionary; no
    other key changes, and a second construction changes nothing. *)
Theorem base_init_style (settings : dict) :
  truth (get "style" (BaseInit.__init__ settings)) = true
  /\ (truth (get "style" settings) = false ->
      get "style" (BaseInit.__init__ settings) = BaseInit.default_style_config)
  /\ (truth (get "style" settings) = true ->
      BaseInit.__init__ settings = settings)
  /\ (forall key, key <> "style" ->
      get key (BaseInit.__init__ settings) = get key settings)
  /\ BaseInit.__init__ (BaseInit.__init__ settings) = BaseInit.__init__ settings.
Proof.
  unfold BaseInit.__init__.
  destruct (truth (get "style" settings)) eqn:Hstyle; cbn [negb].
  - rewrite Hstyle. cbn [negb]. repeat split; try reflexivity.
    intros H; discriminate H.
  - rewrite get_update_same. cbn.
    split; [reflexivity|]. split; [reflexivity|].
    split; [intros H; discriminate H|]. split; [|reflexivity].
    intros key Hkey. apply get_update_other, Hkey.
Qed.

End BaseInitFacts.
